(** * The reflected-output demo (demo.py): handler, template and rendering

    The program is one Flask view, [index], bound to the route [/] for the
    methods GET and POST.  It reads the form field [user_input], builds a
    string with an f-string and hands it to [render_template_string]
    together with the constant [HTML_TEMPLATE].

    The development below embeds
      - the request data the view reads ([request.method], [request.form]),
      - the constant [HTML_TEMPLATE], line by line,
      - the fragment of the template engine that [HTML_TEMPLATE] exercises
        (data, one [{{ name|filter }}] output, automatic escaping unless
        the value is marked safe),
      - the view [index] and the conversion of its result to a response. *)

From Stdlib Require Import String Ascii List Bool Arith Lia.
Import ListNotations.

Local Open Scope list_scope.
Local Open Scope string_scope.

(** ** Characters that cannot be written inside a literal *)

Definition dq_char : ascii := "034"%char.
Definition nl_char : ascii := "010"%char.
Definition cr_char : ascii := "013"%char.

Definition dq : string := String dq_char EmptyString.
Definition nl : string := String nl_char EmptyString.

(** ** Exceptions and results

    The view either returns a value or lets an exception escape. *)

Inductive Exn : Type :=
| BadRequestKeyError (key : string)
| TemplateSyntaxError
| TemplateAssertionError (filter : string).

Inductive Result (A : Type) : Type :=
| Return (a : A)
| Raise (e : Exn).

Arguments Return {A} a.
Arguments Raise {A} e.

Definition bind {A B : Type} (m : Result A) (k : A -> Result B) : Result B :=
  match m with
  | Return a => k a
  | Raise e => Raise e
  end.

Notation "x <- m ;; k" := (bind m (fun x => k))
  (at level 61, m at next level, right associativity).

(** ** Substrings *)

(** [contains needle hay]: [needle] occurs in [hay] as a contiguous run. *)
Definition contains (needle hay : string) : Prop :=
  exists before after, hay = before ++ needle ++ after.

(** Number of positions of [hay] at which [needle] starts. *)
Fixpoint count_occurrences (needle hay : string) : nat :=
  match hay with
  | EmptyString => if prefix needle EmptyString then 1 else 0
  | String _ rest =>
      (if prefix needle hay then 1 else 0) + count_occurrences needle rest
  end.

(** ** The request

    [request.method] is a string; [request.form] is a multi-dict, kept here
    as the list of submitted (name, value) pairs in submission order. *)

Record Request : Type := mkRequest {
  method : string;
  form : list (string * string)
}.

(** [request.form.get(key)]: the first value submitted under [key]. *)
Fixpoint form_get (fields : list (string * string)) (key : string)
  : option string :=
  match fields with
  | [] => None
  | (k, v) :: rest => if String.eqb k key then Some v else form_get rest key
  end.

(** [request.form[key]]: as [form_get], but a missing key raises
    [BadRequestKeyError]. *)
Definition form_getitem (fields : list (string * string)) (key : string)
  : Result string :=
  match form_get fields key with
  | Some v => Return v
  | None => Raise (BadRequestKeyError key)
  end.

(** ** HTML_TEMPLATE (demo.py, lines 5-104) *)

(** Lines 5-100 of demo.py: what follows the opening triple quote on line 5
    (nothing), then every line of the literal up to the [<h2>] heading. *)
Definition template_head : list string :=
  [ EmptyString
  ; "<!doctype html>"
  ; "<html lang=" ++ dq ++ "en" ++ dq ++ ">"
  ; "<head>"
  ; "    <meta charset=" ++ dq ++ "UTF-8" ++ dq ++ ">"
  ; "    <meta name=" ++ dq ++ "viewport" ++ dq ++ " content=" ++ dq ++ "width=device-width, initial-scale=1.0" ++ dq ++ ">"
  ; "    <title>LLM Insecure Output Handling Example</title>"
  ; "    <style>"
  ; "        /* Basic Reset */"
  ; "        * {"
  ; "            margin: 0;"
  ; "            padding: 0;"
  ; "            box-sizing: border-box;"
  ; "            font-family: 'Courier New', Courier, monospace;"
  ; "        }"
  ; EmptyString
  ; "        body {"
  ; "            background-color: #000;"
  ; "            color: #0f0;"
  ; "            display: flex;"
  ; "            justify-content: center;"
  ; "            align-items: center;"
  ; "            height: 100vh;"
  ; "            flex-direction: column;"
  ; "            overflow: hidden;"
  ; "        }"
  ; EmptyString
  ; "        h1, h2 {"
  ; "            text-align: center;"
  ; "            text-shadow: 0 0 5px #00ff00, 0 0 10px #00ff00;"
  ; "        }"
  ; EmptyString
  ; "        form {"
  ; "            background: rgba(0, 255, 0, 0.1);"
  ; "            padding: 20px;"
  ; "            border: 2px solid #0f0;"
  ; "            border-radius: 5px;"
  ; "            box-shadow: 0 0 15px rgba(0, 255, 0, 0.5);"
  ; "            width:50%;"
  ; "        }"
  ; EmptyString
  ; "        input[type=" ++ dq ++ "text" ++ dq ++ "] {"
  ; "            background-color: black;"
  ; "            color: #0f0;"
  ; "            border: 1px solid #0f0;"
  ; "            padding: 5px;"
  ; "            width: 100%;"
  ; "        }"
  ; EmptyString
  ; "        input[type=" ++ dq ++ "submit" ++ dq ++ "] {"
  ; "            background-color: black;"
  ; "            color: #0f0;"
  ; "            border: 1px solid #0f0;"
  ; "            padding: 5px 10px;"
  ; "            cursor: pointer;"
  ; "        }"
  ; EmptyString
  ; "        input[type=" ++ dq ++ "submit" ++ dq ++ "]:hover {"
  ; "            background-color: #0f0;"
  ; "            color: black;"
  ; "        }"
  ; EmptyString
  ; "        #output {"
  ; "            margin-top: 15px;"
  ; "            padding: 10px;"
  ; "            border: 1px dashed #0f0;"
  ; "            font-family: 'Courier New', Courier, monospace;"
  ; "            font-size: 1.2em;"
  ; "            white-space: pre-wrap;"
  ; "            text-shadow: 0 0 5px #00ff00, 0 0 10px #00ff00;"
  ; "        }"
  ; EmptyString
  ; "        /* Glitch Effect */"
  ; "        @keyframes glitch {"
  ; "            0% { transform: translate(2px, 2px); }"
  ; "            20% { transform: translate(-2px, -2px); }"
  ; "            40% { transform: translate(2px, -2px); }"
  ; "            60% { transform: translate(-2px, 2px); }"
  ; "            80% { transform: translate(2px, 2px); }"
  ; "            100% { transform: translate(-2px, -2px); }"
  ; "        }"
  ; EmptyString
  ; "        h1 {"
  ; "            animation: glitch 1s infinite;"
  ; "        }"
  ; EmptyString
  ; "    </style>"
  ; "</head>"
  ; "<body>"
  ; "    <h1>LLM Output Example</h1>"
  ; "    <form method=" ++ dq ++ "post" ++ dq ++ ">"
  ; "        <label for=" ++ dq ++ "user_input" ++ dq ++ ">Enter your prompt:</label><br>"
  ; "        <input type=" ++ dq ++ "text" ++ dq ++ " id=" ++ dq ++ "user_input" ++ dq ++ " name=" ++ dq ++ "user_input" ++ dq ++ "><br><br>"
  ; "        <input type=" ++ dq ++ "submit" ++ dq ++ " value=" ++ dq ++ "Submit" ++ dq ++ ">"
  ; "    </form>"
  ; "    <h2>Output:</h2>" ].

(** Lines 102-103 of demo.py: the two lines after the output [div]. *)
Definition template_tail : list string :=
  [ "</body>"
  ; "</html>" ].

(** Line 101, the only line with template syntax, in three pieces. *)
Definition output_line_before : string :=
  "    <div id=" ++ dq ++ "output" ++ dq ++ ">".
Definition output_placeholder : string := "{{ output|safe }}".
Definition output_line_after : string := "</div>".

(** Every line of the literal is followed by a newline; the closing triple
    quote stands at the start of line 104. *)
Fixpoint unlines (ls : list string) : string :=
  match ls with
  | [] => EmptyString
  | l :: rest => l ++ nl ++ unlines rest
  end.

Definition output_line : string :=
  output_line_before ++ output_placeholder ++ output_line_after.

Definition HTML_TEMPLATE : string :=
  unlines (template_head ++ [output_line] ++ template_tail)%list.

(** The text of the literal before and after the placeholder.  The engine
    drops the literal's final newline (see [strip_trailing_newline]), so the
    rendered page ends with [</html>]. *)
Definition page_prefix : string := unlines template_head ++ output_line_before.
Definition page_suffix : string :=
  output_line_after ++ nl ++ "</body>" ++ nl ++ "</html>".

(** ** The template engine, restricted to what HTML_TEMPLATE uses

    [render_template_string source context] compiles [source] and renders it
    against [context].  The fragment modelled: template data, and outputs of
    the form [{{ name }}] or [{{ name|f1|...|fn }}] with the filters [safe],
    [escape] and [e].  Block tags, comments, string literals and carriage
    returns in the source are outside the fragment and rejected.  String
    templates are rendered with automatic escaping switched on, as Flask
    does for [render_template_string]. *)

Module Jinja.

(** A run-time value: a plain string, a string marked safe for HTML, or
    the value of a name the context does not define. *)
Inductive Value : Type :=
| Str (s : string)
| Markup (s : string)
| Undefined.

Definition Context : Type := list (string * Value).

Inductive Segment : Type :=
| Data (text : string)
| Expr (source : string).

Inductive Node : Type :=
| TemplateData (data : string)
| Output (name : string) (filters : list string).

(** With [keep_trailing_newline] off (the default) one final newline of
    the source is dropped before lexing. *)
Fixpoint strip_trailing_newline (source : string) : string :=
  match source with
  | EmptyString => EmptyString
  | String c rest =>
      match rest with
      | EmptyString =>
          if Ascii.eqb c nl_char then EmptyString else source
      | String _ _ => String c (strip_trailing_newline rest)
      end
  end.

Definition push_char (c : ascii) (segments : list Segment) : list Segment :=
  match segments with
  | Data text :: rest => Data (String c text) :: rest
  | Expr source :: rest => Expr (String c source) :: rest
  | [] => []
  end.

(** The lexer: outside a variable, [{{] opens one; inside, [}}] closes it.
    The result alternates [Data] and [Expr], first and last [Data]. *)
Fixpoint tokenize (in_variable : bool) (source : string)
  : option (list Segment) :=
  match source with
  | EmptyString =>
      if in_variable then None else Some [Data EmptyString]
  | String c rest =>
      if in_variable then
        match rest with
        | String c' rest' =>
            if Ascii.eqb c "}" && Ascii.eqb c' "}" then
              option_map (cons (Expr EmptyString)) (tokenize false rest')
            else option_map (push_char c) (tokenize true rest)
        | EmptyString => None
        end
      else if Ascii.eqb c cr_char then None
      else
        match rest with
        | String c' rest' =>
            if Ascii.eqb c "{" && Ascii.eqb c' "{" then
              option_map (cons (Data EmptyString)) (tokenize true rest')
            else if Ascii.eqb c "{"
                    && (Ascii.eqb c' "%" || Ascii.eqb c' "#") then None
            else option_map (push_char c) (tokenize false rest)
        | EmptyString => Some [Data (String c EmptyString)]
        end
  end.

Definition is_space (c : ascii) : bool :=
  Ascii.eqb c " " || Ascii.eqb c "009" || Ascii.eqb c nl_char
  || Ascii.eqb c cr_char.

Fixpoint lstrip (s : string) : string :=
  match s with
  | EmptyString => EmptyString
  | String c rest => if is_space c then lstrip rest else s
  end.

Fixpoint rstrip (s : string) : string :=
  match s with
  | EmptyString => EmptyString
  | String c rest =>
      match rstrip rest with
      | EmptyString => if is_space c then EmptyString else String c EmptyString
      | kept => String c kept
      end
  end.

Definition strip (s : string) : string := lstrip (rstrip s).

Fixpoint split_on (sep : ascii) (s : string) : list string :=
  match s with
  | EmptyString => [EmptyString]
  | String c rest =>
      if Ascii.eqb c sep then EmptyString :: split_on sep rest
      else
        match split_on sep rest with
        | piece :: pieces => String c piece :: pieces
        | [] => [String c EmptyString]
        end
  end.

Definition in_range (lo hi : nat) (c : ascii) : bool :=
  Nat.leb lo (nat_of_ascii c) && Nat.leb (nat_of_ascii c) hi.

Definition is_name_start (c : ascii) : bool :=
  in_range 65 90 c || in_range 97 122 c || Ascii.eqb c "_".

Definition is_name_char (c : ascii) : bool :=
  is_name_start c || in_range 48 57 c.

Fixpoint all_chars (p : ascii -> bool) (s : string) : bool :=
  match s with
  | EmptyString => true
  | String c rest => p c && all_chars p rest
  end.

Definition is_identifier (s : string) : bool :=
  match s with
  | EmptyString => false
  | String c rest => is_name_start c && all_chars is_name_char rest
  end.

(** [name] or [name|filter|...], blanks around the names allowed. *)
Definition parse_expression (source : string)
  : option (string * list string) :=
  match map strip (split_on "|" source) with
  | name :: filters =>
      if is_identifier name && forallb is_identifier filters
      then Some (name, filters) else None
  | [] => None
  end.

Definition parse_segment (segment : Segment) : Result Node :=
  match segment with
  | Data text => Return (TemplateData text)
  | Expr source =>
      match parse_expression source with
      | Some (name, filters) => Return (Output name filters)
      | None => Raise TemplateSyntaxError
      end
  end.

Fixpoint parse_segments (segments : list Segment) : Result (list Node) :=
  match segments with
  | [] => Return []
  | segment :: rest =>
      node <- parse_segment segment ;;
      nodes <- parse_segments rest ;;
      Return (node :: nodes)
  end.

Definition parse (source : string) : Result (list Node) :=
  match tokenize false (strip_trailing_newline source) with
  | Some segments => parse_segments segments
  | None => Raise TemplateSyntaxError
  end.

(** [markupsafe.escape] on a plain string. *)
Definition escape_char (c : ascii) : string :=
  if Ascii.eqb c "&" then "&amp;"
  else if Ascii.eqb c ">" then "&gt;"
  else if Ascii.eqb c "<" then "&lt;"
  else if Ascii.eqb c "'" then "&#39;"
  else if Ascii.eqb c dq_char then "&#34;"
  else String c EmptyString.

Fixpoint escape (s : string) : string :=
  match s with
  | EmptyString => EmptyString
  | String c rest => escape_char c ++ escape rest
  end.

Definition to_str (v : Value) : string :=
  match v with
  | Str s => s
  | Markup s => s
  | Undefined => EmptyString
  end.

(** What the output of a value writes when automatic escaping is on:
    marked values as they are, everything else escaped. *)
Definition finalize (v : Value) : string :=
  match v with
  | Markup s => s
  | Str s => escape s
  | Undefined => EmptyString
  end.

Definition apply_filter (name : string) (v : Value) : Result Value :=
  if String.eqb name "safe" then Return (Markup (to_str v))
  else if String.eqb name "escape" || String.eqb name "e"
       then Return (Markup (finalize v))
  else Raise (TemplateAssertionError name).

Fixpoint apply_filters (names : list string) (v : Value) : Result Value :=
  match names with
  | [] => Return v
  | name :: rest => v' <- apply_filter name v ;; apply_filters rest v'
  end.

Fixpoint resolve (context : Context) (name : string) : Value :=
  match context with
  | [] => Undefined
  | (k, v) :: rest => if String.eqb k name then v else resolve rest name
  end.

Definition render_node (context : Context) (node : Node) : Result string :=
  match node with
  | TemplateData data => Return data
  | Output name filters =>
      v <- apply_filters filters (resolve context name) ;;
      Return (finalize v)
  end.

Fixpoint render (context : Context) (nodes : list Node) : Result string :=
  match nodes with
  | [] => Return EmptyString
  | node :: rest =>
      piece <- render_node context node ;;
      pieces <- render context rest ;;
      Return (piece ++ pieces)
  end.

Definition render_template_string (source : string) (context : Context)
  : Result string :=
  nodes <- parse source ;;
  render context nodes.

Definition count_outputs (nodes : list Node) : nat :=
  length (filter (fun node =>
                    match node with Output _ _ => true | _ => false end)
                 nodes).

End Jinja.

(** ** The view (demo.py, lines 106-115)

    [index_output request] is the value of the local variable [output] when
    control reaches the [return] statement; the lookup [request.form[...]]
    is the only step that can raise, and nothing catches it. *)

Definition index_output (request : Request) : Result string :=
  if String.eqb (method request) "POST" then
    user_input <- form_getitem (form request) "user_input" ;;
    Return ("You asked: " ++ user_input
            ++ ". Here is some output: " ++ user_input)
  else Return EmptyString.

(** The keyword argument [output=output] is the whole context the view
    supplies; the value is a plain [str]. *)
Definition index (request : Request) : Result string :=
  output <- index_output request ;;
  Jinja.render_template_string HTML_TEMPLATE [("output", Jinja.Str output)].

(** ** From the view's result to the response

    A string returned by a view becomes an HTML response with status 200.
    An exception that escapes the view becomes an error response.  A
    [BadRequestKeyError] is a 400 error, except that in debug mode the
    framework re-raises it as an unhandled exception, which the
    development server reports with status 500. *)

Inductive Response : Type :=
| HtmlResponse (status : nat) (body : string)
| ErrorResponse (status : nat) (e : Exn).

Definition error_status (debug : bool) (e : Exn) : nat :=
  match e with
  | BadRequestKeyError _ => if debug then 500 else 400
  | TemplateSyntaxError => 500
  | TemplateAssertionError _ => 500
  end.

Definition full_dispatch_request (debug : bool) (request : Request)
  : Response :=
  match index request with
  | Return body => HtmlResponse 200 body
  | Raise e => ErrorResponse (error_status debug e) e
  end.

(** Line 118: [app.run(debug=True)]. *)
Definition app_debug : bool := true.

Definition serve (request : Request) : Response :=
  full_dispatch_request app_debug request.

(** The server answers requests one after the other; the view reads
    nothing but the request it is called for and writes nothing. *)
Definition serve_all (requests : list Request) : list Response :=
  map serve requests.

Definition status_of (r : Response) : nat :=
  match r with
  | HtmlResponse status _ => status
  | ErrorResponse status _ => status
  end.

Definition is_rendered (r : Response) : bool :=
  match r with
  | HtmlResponse _ _ => true
  | ErrorResponse _ _ => false
  end.

(** ** Sample requests *)

Definition get_request : Request := mkRequest "GET" [].

Definition post_request (s : string) : Request :=
  mkRequest "POST" [("user_input", s)].

Definition post_without_field : Request :=
  mkRequest "POST" [("prompt", "hello")].

Definition script_payload : string := "<script>alert(1)</script>".

(** A form with other fields and a repeated [user_input]. *)
Definition post_with_other_fields : Request :=
  mkRequest "POST"
    [("csrf", "t0ken"); ("user_input", "hello"); ("user_input", "ignored")].

(** The submitted fields named [user_input], in submission order: what is
    left of the form when every other field is dropped. *)
Definition user_input_fields (fields : list (string * string))
  : list (string * string) :=
  filter (fun field => String.eqb (fst field) "user_input") fields.


(** * Properties *)

(** ** Strings *)

Lemma append_nil_r (s : string) : s ++ EmptyString = s.
Proof. induction s as [|c s IH]; simpl; [reflexivity | now rewrite IH]. Qed.

Lemma append_assoc (a b c : string) : (a ++ b) ++ c = a ++ b ++ c.
Proof. induction a as [|x a IH]; simpl; [reflexivity | now rewrite IH]. Qed.

Lemma length_append (a b : string) :
  String.length (a ++ b) = String.length a + String.length b.
Proof. induction a as [|x a IH]; simpl; [reflexivity | now rewrite IH]. Qed.

Lemma append_inj_l (p a b : string) : p ++ a = p ++ b -> a = b.
Proof.
  induction p as [|x p IH]; simpl; intros H; [exact H|].
  injection H as H. now apply IH.
Qed.

Lemma append_inj_r (q a b : string) : a ++ q = b ++ q -> a = b.
Proof.
  revert b; induction a as [|x a IH]; intros [|y b] H; simpl in H.
  - reflexivity.
  - apply (f_equal String.length) in H. simpl in H.
    rewrite length_append in H. lia.
  - apply (f_equal String.length) in H. simpl in H.
    rewrite length_append in H. lia.
  - injection H as Hxy H. subst y. f_equal. now apply IH.
Qed.

Lemma contains_middle (before needle after : string) :
  contains needle (before ++ needle ++ after).
Proof. now exists before, after. Qed.

(** ** The template *)

(** The literal is the prefix, the placeholder, the suffix and one final
    newline, in this order. *)
Lemma HTML_TEMPLATE_split :
  HTML_TEMPLATE = page_prefix ++ output_placeholder ++ page_suffix ++ nl.
Proof. vm_compute. reflexivity. Qed.

(** Compiling the literal gives three nodes, one of them an output. *)
Lemma parse_HTML_TEMPLATE :
  Jinja.parse HTML_TEMPLATE
  = Return [Jinja.TemplateData page_prefix;
            Jinja.Output "output" ["safe"];
            Jinja.TemplateData page_suffix].
Proof. vm_compute. reflexivity. Qed.

(** ** The engine on a single output marked safe *)

Section SingleOutput.

Variables (before after name : string).

Lemma render_safe_output (v : Jinja.Value) :
  Jinja.render [(name, v)]
    [Jinja.TemplateData before; Jinja.Output name ["safe"];
     Jinja.TemplateData after]
  = Return (before ++ Jinja.to_str v ++ after).
Proof.
  simpl. rewrite String.eqb_refl. simpl.
  now rewrite append_nil_r.
Qed.

(** Without the filter the same value is written escaped. *)
Lemma render_plain_output (s : string) :
  Jinja.render [(name, Jinja.Str s)]
    [Jinja.TemplateData before; Jinja.Output name [];
     Jinja.TemplateData after]
  = Return (before ++ Jinja.escape s ++ after).
Proof.
  simpl. rewrite String.eqb_refl. simpl.
  now rewrite append_nil_r.
Qed.

End SingleOutput.

Lemma render_HTML_TEMPLATE (output : string) :
  Jinja.render_template_string HTML_TEMPLATE [("output", Jinja.Str output)]
  = Return (page_prefix ++ output ++ page_suffix).
Proof.
  unfold Jinja.render_template_string.
  rewrite parse_HTML_TEMPLATE.
  cbv beta iota delta [bind].
  apply (render_safe_output page_prefix page_suffix "output" (Jinja.Str output)).
Qed.

(** ** The view *)

(** The view renders exactly when the computation of [output] succeeds,
    and then returns the page with [output] between prefix and suffix. *)
Lemma index_spec (request : Request) :
  index request
  = (output <- index_output request ;;
     Return (page_prefix ++ output ++ page_suffix)).
Proof.
  unfold index. destruct (index_output request) as [output|e]; simpl.
  - apply render_HTML_TEMPLATE.
  - reflexivity.
Qed.

Lemma index_output_post (request : Request) (s : string) :
  method request = "POST" ->
  form_get (form request) "user_input" = Some s ->
  index_output request
  = Return ("You asked: " ++ s ++ ". Here is some output: " ++ s).
Proof.
  intros Hm Hf. unfold index_output, form_getitem.
  rewrite Hm, Hf. reflexivity.
Qed.

Lemma index_output_post_missing (request : Request) :
  method request = "POST" ->
  form_get (form request) "user_input" = None ->
  index_output request = Raise (BadRequestKeyError "user_input").
Proof.
  intros Hm Hf. unfold index_output, form_getitem.
  rewrite Hm, Hf. reflexivity.
Qed.

Lemma index_output_not_post (request : Request) :
  method request <> "POST" -> index_output request = Return EmptyString.
Proof.
  intros Hm. unfold index_output.
  apply String.eqb_neq in Hm. now rewrite Hm.
Qed.

Lemma index_post (request : Request) (s : string) :
  method request = "POST" ->
  form_get (form request) "user_input" = Some s ->
  index request
  = Return (page_prefix
            ++ ("You asked: " ++ s ++ ". Here is some output: " ++ s)
            ++ page_suffix).
Proof.
  intros Hm Hf. rewrite index_spec, (index_output_post request s Hm Hf).
  reflexivity.
Qed.

Lemma index_get (request : Request) :
  method request = "GET" ->
  index request = Return (page_prefix ++ page_suffix).
Proof.
  intros Hm. rewrite index_spec, index_output_not_post.
  - reflexivity.
  - rewrite Hm. discriminate.
Qed.

Lemma index_post_missing (request : Request) :
  method request = "POST" ->
  form_get (form request) "user_input" = None ->
  index request = Raise (BadRequestKeyError "user_input").
Proof.
  intros Hm Hf.
  rewrite index_spec, (index_output_post_missing request Hm Hf).
  reflexivity.
Qed.

(** The view looks at the method and at the first [user_input] field
    only. *)
Lemma index_output_ext (r1 r2 : Request) :
  method r1 = method r2 ->
  form_get (form r1) "user_input" = form_get (form r2) "user_input" ->
  index_output r1 = index_output r2.
Proof.
  intros Hm Hf. unfold index_output, form_getitem. now rewrite Hm, Hf.
Qed.

Lemma serve_ext (r1 r2 : Request) :
  method r1 = method r2 ->
  form_get (form r1) "user_input" = form_get (form r2) "user_input" ->
  serve r1 = serve r2.
Proof.
  intros Hm Hf. unfold serve, full_dispatch_request.
  now rewrite !index_spec, (index_output_ext r1 r2 Hm Hf).
Qed.

Lemma serve_all_nth (before after : list Request) (r : Request) :
  nth_error (serve_all (before ++ r :: after)) (List.length before)
  = Some (serve r).
Proof.
  unfold serve_all. rewrite map_app. simpl.
  rewrite nth_error_app2; rewrite length_map; [|lia].
  now rewrite Nat.sub_diag.
Qed.

(** The response is a function of the method and of the submitted
    [user_input], if any. *)
Lemma serve_factors :
  exists respond : string -> option string -> Response,
    forall r, serve r = respond (method r) (form_get (form r) "user_input").
Proof.
  exists (fun m field =>
            serve (mkRequest m match field with
                               | Some v => [("user_input", v)]
                               | None => []
                               end)).
  intros r. apply serve_ext; simpl; [reflexivity|].
  destruct (form_get (form r) "user_input"); reflexivity.
Qed.

(** ** The engine evaluates template source, not values

    Text that reaches the engine inside the template source is compiled;
    the same text passed as a value is written out as it is. *)

Example source_text_is_evaluated :
  Jinja.render_template_string ("<p>" ++ "{{ secret }}" ++ "</p>")
    [("secret", Jinja.Str "42")]
  = Return "<p>42</p>".
Proof. reflexivity. Qed.

Example value_text_is_not_evaluated :
  Jinja.render_template_string "<p>{{ output|safe }}</p>"
    [("output", Jinja.Str "{{ secret }}"); ("secret", Jinja.Str "42")]
  = Return "<p>{{ secret }}</p>".
Proof. reflexivity. Qed.

Example unmarked_value_is_escaped :
  Jinja.render_template_string "<p>{{ output }}</p>"
    [("output", Jinja.Str "<b>&</b>")]
  = Return "<p>&lt;b&gt;&amp;&lt;/b&gt;</p>".
Proof. reflexivity. Qed.

(** * The claims *)

(** C1. For every POST request whose form carries [user_input] with value
    [s], whatever characters [s] holds, the view returns a body that
    contains "You asked: " ++ s ++ ". Here is some output: " ++ s as it
    is: the body is the fixed prefix, that text and the fixed suffix, and
    its length grows with twice the length of [s] (nothing is escaped,
    removed or cut). *)
Theorem post_reflects_input_verbatim (request : Request) (s : string) :
  method request = "POST" ->
  form_get (form request) "user_input" = Some s ->
  exists body,
    index request = Return body
    /\ contains ("You asked: " ++ s ++ ". Here is some output: " ++ s) body
    /\ body = page_prefix
              ++ ("You asked: " ++ s ++ ". Here is some output: " ++ s)
              ++ page_suffix
    /\ String.length body
       = String.length page_prefix + (34 + 2 * String.length s)
         + String.length page_suffix.
Proof.
  intros Hm Hf. eexists. split; [apply (index_post request s Hm Hf)|].
  split; [apply contains_middle|]. split; [reflexivity|].
  rewrite !length_append.
  change (String.length "You asked: ") with 11.
  change (String.length ". Here is some output: ") with 23.
  lia.
Qed.

Lemma post_reflects_input_verbatim_witness :
  method (post_request "<a href=x>&</a>") = "POST"
  /\ form_get (form (post_request "<a href=x>&</a>")) "user_input"
     = Some "<a href=x>&</a>"
  /\ exists body,
       index (post_request "<a href=x>&</a>") = Return body
       /\ contains ("You asked: " ++ "<a href=x>&</a>"
                    ++ ". Here is some output: " ++ "<a href=x>&</a>") body
       /\ body = page_prefix
                 ++ ("You asked: " ++ "<a href=x>&</a>"
                     ++ ". Here is some output: " ++ "<a href=x>&</a>")
                 ++ page_suffix
       /\ String.length body
          = String.length page_prefix
            + (34 + 2 * String.length "<a href=x>&</a>")
            + String.length page_suffix.
Proof.
  split; [reflexivity|]. split; [reflexivity|].
  apply (post_reflects_input_verbatim (post_request "<a href=x>&</a>"));
    reflexivity.
Defined.

(** C2. For every GET request the computed output is the empty string and
    the rendered body is the prefix directly followed by the suffix: the
    placeholder is replaced by nothing. *)
Theorem get_renders_empty_output (request : Request) :
  method request = "GET" ->
  index_output request = Return EmptyString
  /\ index request = Return (page_prefix ++ EmptyString ++ page_suffix)
  /\ index request = Return (page_prefix ++ page_suffix).
Proof.
  intros Hm. split.
  - apply index_output_not_post. rewrite Hm. discriminate.
  - split; apply (index_get request Hm).
Qed.

Lemma get_renders_empty_output_witness :
  method get_request = "GET"
  /\ index_output get_request = Return EmptyString
  /\ index get_request = Return (page_prefix ++ EmptyString ++ page_suffix)
  /\ index get_request = Return (page_prefix ++ page_suffix).
Proof.
  split; [reflexivity|].
  apply (get_renders_empty_output get_request). reflexivity.
Defined.

(** C3. For every POST request without a [user_input] field the view does
    not render: the lookup raises [BadRequestKeyError], nothing catches
    it, and the response is an error response (status at least 400 in
    either mode), never the HTML page.  As the program starts the
    application ([debug=True]) the error is a server error, status 500. *)
Theorem post_without_field_fails (request : Request) :
  method request = "POST" ->
  form_get (form request) "user_input" = None ->
  index request = Raise (BadRequestKeyError "user_input")
  /\ (forall body, index request <> Return body)
  /\ (forall debug,
        is_rendered (full_dispatch_request debug request) = false
        /\ 400 <= status_of (full_dispatch_request debug request))
  /\ serve request = ErrorResponse 500 (BadRequestKeyError "user_input").
Proof.
  intros Hm Hf. pose proof (index_post_missing request Hm Hf) as Hi.
  split; [exact Hi|]. split.
  - intros body Hb. rewrite Hi in Hb. discriminate.
  - split.
    + intros debug. unfold full_dispatch_request. rewrite Hi.
      destruct debug; simpl; split; try reflexivity; lia.
    + unfold serve, full_dispatch_request. rewrite Hi. reflexivity.
Qed.

Lemma post_without_field_fails_witness :
  method post_without_field = "POST"
  /\ form_get (form post_without_field) "user_input" = None
  /\ index post_without_field = Raise (BadRequestKeyError "user_input")
  /\ (forall body, index post_without_field <> Return body)
  /\ (forall debug,
        is_rendered (full_dispatch_request debug post_without_field) = false
        /\ 400 <= status_of (full_dispatch_request debug post_without_field))
  /\ serve post_without_field
     = ErrorResponse 500 (BadRequestKeyError "user_input").
Proof.
  split; [reflexivity|]. split; [reflexivity|].
  apply (post_without_field_fails post_without_field); reflexivity.
Defined.

(** C4. For every GET request, and for every POST request that carries
    [user_input], the response is the rendered HTML document with status
    200, whatever the debug mode. *)
Theorem rendered_with_status_200 (debug : bool) (request : Request) :
  method request = "GET"
  \/ (method request = "POST"
      /\ exists s, form_get (form request) "user_input" = Some s) ->
  exists output,
    index_output request = Return output
    /\ full_dispatch_request debug request
       = HtmlResponse 200 (page_prefix ++ output ++ page_suffix).
Proof.
  intros [Hm | [Hm [s Hf]]]; unfold full_dispatch_request.
  - exists EmptyString. split.
    + apply index_output_not_post. rewrite Hm. discriminate.
    + now rewrite (index_get request Hm).
  - eexists. split; [apply (index_output_post request s Hm Hf)|].
    now rewrite (index_post request s Hm Hf).
Qed.

Lemma rendered_with_status_200_witness :
  (method (post_request "hello") = "GET"
   \/ (method (post_request "hello") = "POST"
       /\ exists s,
            form_get (form (post_request "hello")) "user_input" = Some s))
  /\ exists output,
       index_output (post_request "hello") = Return output
       /\ full_dispatch_request false (post_request "hello")
          = HtmlResponse 200 (page_prefix ++ output ++ page_suffix).
Proof.
  assert (H : method (post_request "hello") = "GET"
              \/ (method (post_request "hello") = "POST"
                  /\ exists s,
                       form_get (form (post_request "hello")) "user_input"
                       = Some s)).
  { right. split; [reflexivity|]. exists "hello". reflexivity. }
  split; [exact H|].
  exact (rendered_with_status_200 false (post_request "hello") H).
Defined.

(** C5. Two POST requests that both submit [user_input = s] (the same
    request sent twice, or two requests that agree on that field) get the
    same output, the same body and the same response: served one after
    the other, both answers are the same page with status 200. *)
Theorem repeated_post_same_response (r1 r2 : Request) (s : string) :
  method r1 = "POST" -> method r2 = "POST" ->
  form_get (form r1) "user_input" = Some s ->
  form_get (form r2) "user_input" = Some s ->
  index_output r1 = index_output r2
  /\ index r1 = index r2
  /\ exists output body,
       index_output r1 = Return output
       /\ body = page_prefix ++ output ++ page_suffix
       /\ serve_all [r1; r2] = [HtmlResponse 200 body; HtmlResponse 200 body].
Proof.
  intros Hm1 Hm2 Hf1 Hf2.
  pose proof (index_output_post r1 s Hm1 Hf1) as Ho1.
  pose proof (index_output_post r2 s Hm2 Hf2) as Ho2.
  pose proof (index_post r1 s Hm1 Hf1) as Hi1.
  pose proof (index_post r2 s Hm2 Hf2) as Hi2.
  split; [congruence|]. split; [congruence|].
  eexists; eexists. split; [exact Ho1|]. split; [reflexivity|].
  unfold serve_all, serve, full_dispatch_request. simpl map.
  rewrite Hi1, Hi2. reflexivity.
Qed.

Lemma repeated_post_same_response_witness :
  method (post_request "again") = "POST"
  /\ form_get (form (post_request "again")) "user_input" = Some "again"
  /\ index_output (post_request "again") = index_output (post_request "again")
  /\ index (post_request "again") = index (post_request "again")
  /\ exists output body,
       index_output (post_request "again") = Return output
       /\ body = page_prefix ++ output ++ page_suffix
       /\ serve_all [post_request "again"; post_request "again"]
          = [HtmlResponse 200 body; HtmlResponse 200 body].
Proof.
  split; [reflexivity|]. split; [reflexivity|].
  apply (repeated_post_same_response
           (post_request "again") (post_request "again") "again");
    reflexivity.
Defined.

(** C6. A POST request whose [user_input] is present and empty gets the
    output "You asked: . Here is some output: ", and that text is what
    stands between prefix and suffix in the body. *)
Theorem empty_input_output (request : Request) :
  method request = "POST" ->
  form_get (form request) "user_input" = Some EmptyString ->
  index_output request = Return "You asked: . Here is some output: "
  /\ index request
     = Return (page_prefix ++ "You asked: . Here is some output: "
               ++ page_suffix).
Proof.
  intros Hm Hf. split.
  - apply (index_output_post request EmptyString Hm Hf).
  - apply (index_post request EmptyString Hm Hf).
Qed.

Lemma empty_input_output_witness :
  method (post_request EmptyString) = "POST"
  /\ form_get (form (post_request EmptyString)) "user_input"
     = Some EmptyString
  /\ index_output (post_request EmptyString)
     = Return "You asked: . Here is some output: "
  /\ index (post_request EmptyString)
     = Return (page_prefix ++ "You asked: . Here is some output: "
               ++ page_suffix).
Proof.
  split; [reflexivity|]. split; [reflexivity|].
  apply (empty_input_output (post_request EmptyString)); reflexivity.
Defined.

(** C7. A POST request with [user_input = <script>alert(1)</script>] gets
    an output in which that text starts at exactly two places, once after
    "You asked: " and once after "Here is some output: "; the body holds
    it twice as well, and no escaped form of its first character. *)
Theorem script_payload_reflected_twice (request : Request) :
  method request = "POST" ->
  form_get (form request) "user_input" = Some script_payload ->
  exists output body,
    index_output request = Return output
    /\ index request = Return body
    /\ body = page_prefix ++ output ++ page_suffix
    /\ output = "You asked: " ++ script_payload
                ++ ". Here is some output: " ++ script_payload
    /\ count_occurrences script_payload output = 2
    /\ count_occurrences script_payload body = 2
    /\ count_occurrences "&lt;" body = 0.
Proof.
  intros Hm Hf. eexists; eexists.
  split; [apply (index_output_post request script_payload Hm Hf)|].
  split; [apply (index_post request script_payload Hm Hf)|].
  split; [reflexivity|]. split; [reflexivity|].
  split; [vm_compute; reflexivity|].
  split; vm_compute; reflexivity.
Qed.

Lemma script_payload_reflected_twice_witness :
  method (post_request script_payload) = "POST"
  /\ form_get (form (post_request script_payload)) "user_input"
     = Some script_payload
  /\ exists output body,
       index_output (post_request script_payload) = Return output
       /\ index (post_request script_payload) = Return body
       /\ body = page_prefix ++ output ++ page_suffix
       /\ output = "You asked: " ++ script_payload
                   ++ ". Here is some output: " ++ script_payload
       /\ count_occurrences script_payload output = 2
       /\ count_occurrences script_payload body = 2
       /\ count_occurrences "&lt;" body = 0.
Proof.
  split; [reflexivity|]. split; [reflexivity|].
  apply (script_payload_reflected_twice (post_request script_payload));
    reflexivity.
Defined.

(** C8. The template compiles to three nodes of which exactly one is an
    output, the one written [{{ output|safe }}] between the opening and
    the closing tag of the output [div]; and for every request, whenever
    the view renders, the body is the fixed prefix, the computed output
    and the fixed suffix, where prefix and suffix are the text of the
    literal around the placeholder and do not mention the request. *)
Theorem page_frame :
  HTML_TEMPLATE = page_prefix ++ output_placeholder ++ page_suffix ++ nl
  /\ Jinja.parse HTML_TEMPLATE
     = Return [Jinja.TemplateData page_prefix;
               Jinja.Output "output" ["safe"];
               Jinja.TemplateData page_suffix]
  /\ (forall nodes, Jinja.parse HTML_TEMPLATE = Return nodes ->
                    Jinja.count_outputs nodes = 1)
  /\ (forall request,
        index request
        = (output <- index_output request ;;
           Return (page_prefix ++ output ++ page_suffix)))
  /\ (forall request body,
        index request = Return body ->
        exists output,
          index_output request = Return output
          /\ body = page_prefix ++ output ++ page_suffix
          /\ forall output', body = page_prefix ++ output' ++ page_suffix ->
                             output' = output).
Proof.
  split; [apply HTML_TEMPLATE_split|].
  split; [apply parse_HTML_TEMPLATE|].
  split.
  { intros nodes H. rewrite parse_HTML_TEMPLATE in H.
    injection H as <-. reflexivity. }
  split; [apply index_spec|].
  intros request body H. rewrite index_spec in H.
  destruct (index_output request) as [output|e];
    cbv beta iota delta [bind] in H; [|discriminate].
  assert (Hb : body = page_prefix ++ output ++ page_suffix) by congruence.
  exists output. split; [reflexivity|]. split; [exact Hb|].
  intros output' E. rewrite Hb in E.
  apply append_inj_l in E. now apply append_inj_r in E.
Qed.

(** C9. The response depends on the request's method and on its
    [user_input] field only: two requests that agree on both get equal
    responses, and this stays so whatever other requests the server
    answers before or after either of them. *)
Theorem response_depends_on_method_and_input
  (before1 after1 before2 after2 : list Request) (r1 r2 : Request) :
  method r1 = method r2 ->
  form_get (form r1) "user_input" = form_get (form r2) "user_input" ->
  serve r1 = serve r2
  /\ nth_error (serve_all (before1 ++ r1 :: after1)) (List.length before1)
     = nth_error (serve_all (before2 ++ r2 :: after2)) (List.length before2)
  /\ nth_error (serve_all (before1 ++ r1 :: after1)) (List.length before1)
     = Some (serve r1).
Proof.
  intros Hm Hf. pose proof (serve_ext r1 r2 Hm Hf) as Hs.
  split; [exact Hs|].
  rewrite !serve_all_nth. split; [now rewrite Hs | reflexivity].
Qed.

Lemma response_depends_on_method_and_input_witness :
  method (post_request "hello") = method post_with_other_fields
  /\ form_get (form (post_request "hello")) "user_input"
     = form_get (form post_with_other_fields) "user_input"
  /\ serve (post_request "hello") = serve post_with_other_fields
  /\ nth_error
       (serve_all ([get_request] ++ post_request "hello" :: [])) 1
     = nth_error
         (serve_all ([post_without_field; post_request "x"]
                     ++ post_with_other_fields :: [get_request])) 2
  /\ nth_error
       (serve_all ([get_request] ++ post_request "hello" :: [])) 1
     = Some (serve (post_request "hello")).
Proof.
  split; [reflexivity|]. split; [reflexivity|].
  apply (response_depends_on_method_and_input
           [get_request] [] [post_without_field; post_request "x"]
           [get_request] (post_request "hello") post_with_other_fields);
    reflexivity.
Defined.

(** C10. The engine compiles the constant template only; the submitted
    value reaches it as the value of [output] and is written out as it
    is.  For every POST request with [user_input = s] the body is prefix,
    "You asked: " ++ s ++ ". Here is some output: " ++ s, suffix, also
    when [s] is template syntax: for [s = {{7*7}}] the body holds
    [{{7*7}}] twice and no [49]. *)
Theorem template_syntax_in_input_not_evaluated
  (request : Request) (s : string) :
  method request = "POST" ->
  form_get (form request) "user_input" = Some s ->
  exists nodes body,
    Jinja.parse HTML_TEMPLATE = Return nodes
    /\ Jinja.count_outputs nodes = 1
    /\ index request
       = Jinja.render
           [("output",
             Jinja.Str ("You asked: " ++ s ++ ". Here is some output: " ++ s))]
           nodes
    /\ index request = Return body
    /\ body = page_prefix
              ++ ("You asked: " ++ s ++ ". Here is some output: " ++ s)
              ++ page_suffix
    /\ (s = "{{7*7}}" ->
        count_occurrences "{{7*7}}" body = 2
        /\ count_occurrences "49" body = 0).
Proof.
  intros Hm Hf. eexists; eexists.
  split; [apply parse_HTML_TEMPLATE|]. split; [reflexivity|].
  split.
  { rewrite (index_post request s Hm Hf).
    symmetry.
    apply (render_safe_output page_prefix page_suffix "output"
             (Jinja.Str ("You asked: " ++ s ++ ". Here is some output: " ++ s))). }
  split; [apply (index_post request s Hm Hf)|]. split; [reflexivity|].
  intros ->. split; vm_compute; reflexivity.
Qed.

Lemma template_syntax_in_input_not_evaluated_witness :
  method (post_request "{{7*7}}") = "POST"
  /\ form_get (form (post_request "{{7*7}}")) "user_input" = Some "{{7*7}}"
  /\ exists nodes body,
       Jinja.parse HTML_TEMPLATE = Return nodes
       /\ Jinja.count_outputs nodes = 1
       /\ index (post_request "{{7*7}}")
          = Jinja.render
              [("output",
                Jinja.Str ("You asked: " ++ "{{7*7}}"
                           ++ ". Here is some output: " ++ "{{7*7}}"))]
              nodes
       /\ index (post_request "{{7*7}}") = Return body
       /\ body = page_prefix
                 ++ ("You asked: " ++ "{{7*7}}"
                     ++ ". Here is some output: " ++ "{{7*7}}")
                 ++ page_suffix
       /\ ("{{7*7}}" = "{{7*7}}" ->
           count_occurrences "{{7*7}}" body = 2
           /\ count_occurrences "49" body = 0).
Proof.
  split; [reflexivity|]. split; [reflexivity|].
  apply (template_syntax_in_input_not_evaluated (post_request "{{7*7}}"));
    reflexivity.
Defined.

(** * Further properties of the view *)

(** ** Occurrences *)

Lemma prefix_nil (s : string) : prefix EmptyString s = true.
Proof. destruct s; reflexivity. Qed.

Lemma prefix_self_app (needle rest : string) :
  prefix needle (needle ++ rest) = true.
Proof.
  induction needle as [|c needle IH]; simpl.
  - apply prefix_nil.
  - destruct (ascii_dec c c) as [_|N]; [exact IH | now elim N].
Qed.

Lemma prefix_app (needle hay rest : string) :
  prefix needle hay = true -> prefix needle (hay ++ rest) = true.
Proof.
  revert needle; induction hay as [|c hay IH]; intros [|d needle] H; simpl.
  - apply prefix_nil.
  - discriminate H.
  - reflexivity.
  - simpl in H. destruct (ascii_dec d c); [now apply IH | discriminate H].
Qed.

Lemma count_occurrences_nil_pos (hay : string) :
  1 <= count_occurrences EmptyString hay.
Proof. destruct hay; simpl; lia. Qed.

Lemma count_occurrences_prepend (needle before hay : string) :
  count_occurrences needle hay <= count_occurrences needle (before ++ hay).
Proof. induction before as [|c before IH]; simpl; lia. Qed.

Lemma count_occurrences_append (needle hay after : string) :
  count_occurrences needle hay <= count_occurrences needle (hay ++ after).
Proof.
  induction hay as [|c hay IH].
  - destruct needle as [|d needle]; simpl.
    + apply count_occurrences_nil_pos.
    + lia.
  - change (String c hay ++ after) with (String c (hay ++ after)).
    cbn [count_occurrences].
    destruct (prefix needle (String c hay)) eqn:E.
    + apply (prefix_app _ _ after) in E.
      change (String c hay ++ after) with (String c (hay ++ after)) in E.
      rewrite E. lia.
    + destruct (prefix needle (String c (hay ++ after))); lia.
Qed.

Lemma count_occurrences_self (c : ascii) (needle : string) :
  1 <= count_occurrences (String c needle) (String c needle).
Proof.
  cbn [count_occurrences].
  pose proof (prefix_self_app (String c needle) EmptyString) as E.
  rewrite append_nil_r in E. rewrite E. lia.
Qed.

(** A needle followed later by itself starts at two places at least. *)
Lemma count_occurrences_twice (c : ascii) (needle before between : string) :
  2 <= count_occurrences (String c needle)
         (before ++ String c needle ++ between ++ String c needle).
Proof.
  eapply Nat.le_trans; [|apply count_occurrences_prepend].
  change (String c needle ++ between ++ String c needle)
    with (String c (needle ++ between ++ String c needle)).
  cbn [count_occurrences].
  pose proof (prefix_self_app (String c needle)
                (between ++ String c needle)) as E.
  change (String c needle ++ between ++ String c needle)
    with (String c (needle ++ between ++ String c needle)) in E.
  rewrite E.
  pose proof (count_occurrences_prepend (String c needle)
                (needle ++ between) (String c needle)) as P.
  rewrite append_assoc in P.
  pose proof (count_occurrences_self c needle). lia.
Qed.

(** ** Lengths *)

Lemma append_inj_length (a b x y : string) :
  String.length a = String.length b -> a ++ x = b ++ y -> a = b.
Proof.
  revert b; induction a as [|c a IH]; intros [|d b] L H; simpl in L.
  - reflexivity.
  - discriminate L.
  - discriminate L.
  - simpl in H. injection H as Hc H. subst d. f_equal.
    apply IH; [lia | exact H].
Qed.

(** The reflected text determines the submitted value. *)
Lemma reflected_text_inj (between s1 s2 : string) :
  s1 ++ between ++ s1 = s2 ++ between ++ s2 -> s1 = s2.
Proof.
  intros H. apply (append_inj_length s1 s2 (between ++ s1) (between ++ s2));
    [|exact H].
  apply (f_equal String.length) in H.
  rewrite !length_append in H. lia.
Qed.

(** ** The form *)

Lemma form_get_filter (fields : list (string * string)) (key : string) :
  form_get (filter (fun field => String.eqb (fst field) key) fields) key
  = form_get fields key.
Proof.
  induction fields as [|[k v] fields IH]; simpl; [reflexivity|].
  destruct (String.eqb k key) eqn:E; simpl; [now rewrite E | exact IH].
Qed.

Lemma form_get_skip (before after : list (string * string))
  (key v : string) :
  form_get before key = None ->
  form_get (before ++ (key, v) :: after) key = Some v.
Proof.
  induction before as [|[k w] before IH]; simpl; intros H.
  - now rewrite String.eqb_refl.
  - destruct (String.eqb k key); [discriminate H | now apply IH].
Qed.

Lemma index_ext (r1 r2 : Request) :
  method r1 = method r2 ->
  form_get (form r1) "user_input" = form_get (form r2) "user_input" ->
  index r1 = index r2.
Proof.
  intros Hm Hf. now rewrite !index_spec, (index_output_ext r1 r2 Hm Hf).
Qed.

(** What [index_output] returns, by cases on the method and the field. *)
Lemma index_output_cases (request : Request) :
  (method request <> "POST" /\ index_output request = Return EmptyString)
  \/ (method request = "POST"
      /\ form_get (form request) "user_input" = None
      /\ index_output request = Raise (BadRequestKeyError "user_input"))
  \/ (method request = "POST"
      /\ exists s,
           form_get (form request) "user_input" = Some s
           /\ index_output request
              = Return ("You asked: " ++ s ++ ". Here is some output: " ++ s)).
Proof.
  destruct (String.eqb_spec (method request) "POST") as [Hm|Hm].
  - right. destruct (form_get (form request) "user_input") as [s|] eqn:Hf.
    + right. split; [exact Hm|]. exists s. split; [reflexivity|].
      apply (index_output_post request s Hm Hf).
    + left. split; [exact Hm|]. split; [reflexivity|].
      apply (index_output_post_missing request Hm Hf).
  - left. split; [exact Hm|]. now apply index_output_not_post.
Qed.

(** ** Properties *)

(** X1. The view fails in one case only: it raises [e] exactly when the
    method is POST, the form has no [user_input] field and [e] is the key
    error for that name.  In particular rendering the template never
    fails, whatever text is submitted. *)
Theorem index_raises_iff (request : Request) (e : Exn) :
  index request = Raise e
  <-> method request = "POST"
      /\ form_get (form request) "user_input" = None
      /\ e = BadRequestKeyError "user_input".
Proof.
  rewrite index_spec.
  destruct (index_output_cases request)
    as [[Hm Ho] | [[Hm [Hf Ho]] | [Hm [s [Hf Ho]]]]];
    rewrite Ho; cbv beta iota delta [bind]; split.
  - discriminate.
  - intros [Hm' _]. contradiction.
  - intros H. repeat split; congruence.
  - intros [_ [_ ->]]. reflexivity.
  - discriminate.
  - intros [_ [Hf' _]]. congruence.
Qed.



(** X3. Fields with other names do not count: dropping every field that
    is not named [user_input] from the form changes neither the view's
    result nor the response. *)
Theorem other_fields_ignored (request : Request) :
  index (mkRequest (method request) (user_input_fields (form request)))
  = index request
  /\ serve (mkRequest (method request) (user_input_fields (form request)))
     = serve request.
Proof.
  split; [apply index_ext | apply serve_ext]; simpl; try reflexivity;
    apply form_get_filter.
Qed.

(** X4. When [user_input] is submitted more than once the first value is
    the one reflected: a POST form whose first [user_input] field has
    value [v] gives the page of a form with that single field, whatever
    fields follow. *)
Theorem first_user_input_wins
  (before after : list (string * string)) (v : string) :
  form_get before "user_input" = None ->
  index (mkRequest "POST" (before ++ ("user_input", v) :: after))
  = index (post_request v)
  /\ index (mkRequest "POST" (before ++ ("user_input", v) :: after))
     = Return (page_prefix
               ++ ("You asked: " ++ v ++ ". Here is some output: " ++ v)
               ++ page_suffix).
Proof.
  intros H.
  pose proof (form_get_skip before after "user_input" v H) as Hf.
  split.
  - apply index_ext; unfold post_request; cbn [method form];
      [reflexivity|].
    rewrite Hf. reflexivity.
  - now apply index_post.
Qed.

Lemma first_user_input_wins_witness :
  form_get [("csrf", "t0ken")] "user_input" = None
  /\ index (mkRequest "POST"
              ([("csrf", "t0ken")]
               ++ ("user_input", "first") :: [("user_input", "second")]))
     = index (post_request "first")
  /\ index (mkRequest "POST"
              ([("csrf", "t0ken")]
               ++ ("user_input", "first") :: [("user_input", "second")]))
     = Return (page_prefix
               ++ ("You asked: " ++ "first"
                   ++ ". Here is some output: " ++ "first")
               ++ page_suffix).
Proof.
  split; [reflexivity|].
  apply (first_user_input_wins
           [("csrf", "t0ken")] [("user_input", "second")] "first").
  reflexivity.
Defined.

(** X5. Every submitted value is reflected twice: for every POST request
    with [user_input = s], whatever [s] is, [s] starts at two places at
    least of the output, and of the body. *)
Theorem input_occurs_twice (request : Request) (s : string) :
  method request = "POST" ->
  form_get (form request) "user_input" = Some s ->
  exists output body,
    index_output request = Return output
    /\ index request = Return body
    /\ 2 <= count_occurrences s output
    /\ 2 <= count_occurrences s body.
Proof.
  intros Hm Hf. eexists; eexists.
  split; [apply (index_output_post request s Hm Hf)|].
  split; [apply (index_post request s Hm Hf)|].
  assert (H : 2 <= count_occurrences s
                     ("You asked: " ++ s ++ ". Here is some output: " ++ s)).
  { destruct s as [|c s].
    - vm_compute. lia.
    - apply count_occurrences_twice. }
  split; [exact H|].
  eapply Nat.le_trans; [exact H|].
  eapply Nat.le_trans; [apply count_occurrences_append|].
  apply count_occurrences_prepend.
Qed.

Lemma input_occurs_twice_witness :
  method (post_request "o") = "POST"
  /\ form_get (form (post_request "o")) "user_input" = Some "o"
  /\ exists output body,
       index_output (post_request "o") = Return output
       /\ index (post_request "o") = Return body
       /\ 2 <= count_occurrences "o" output
       /\ 2 <= count_occurrences "o" body.
Proof.
  split; [reflexivity|]. split; [reflexivity|].
  apply (input_occurs_twice (post_request "o")); reflexivity.
Defined.

(** X6. The page tells what was submitted: two requests that get the same
    body have the same output; either none of them is a POST request, or
    both are and they submit the same [user_input]. *)
Theorem body_determines_input (r1 r2 : Request) (body : string) :
  index r1 = Return body ->
  index r2 = Return body ->
  index_output r1 = index_output r2
  /\ (method r1 = "POST" <-> method r2 = "POST")
  /\ (method r1 = "POST" ->
      exists s, form_get (form r1) "user_input" = Some s
                /\ form_get (form r2) "user_input" = Some s).
Proof.
  intros H1 H2. rewrite index_spec in H1, H2.
  destruct (index_output_cases r1)
    as [[Hm1 Ho1] | [[Hm1 [Hf1 Ho1]] | [Hm1 [s1 [Hf1 Ho1]]]]];
    rewrite Ho1 in H1 |- *; cbv beta iota delta [bind] in H1;
    try discriminate H1;
  destruct (index_output_cases r2)
    as [[Hm2 Ho2] | [[Hm2 [Hf2 Ho2]] | [Hm2 [s2 [Hf2 Ho2]]]]];
    rewrite Ho2 in H2 |- *; cbv beta iota delta [bind] in H2;
    try discriminate H2;
  assert (E : Return (A := string) body = Return body) by reflexivity;
    rewrite <- H1 in E at 1; rewrite <- H2 in E;
    assert (E' : forall a b : string,
               Return (page_prefix ++ a ++ page_suffix)
               = Return (page_prefix ++ b ++ page_suffix) -> a = b)
      by (intros a b Eab;
          assert (Eab' : page_prefix ++ a ++ page_suffix
                         = page_prefix ++ b ++ page_suffix) by congruence;
          apply append_inj_l in Eab'; now apply append_inj_r in Eab');
    apply E' in E; clear E' H1 H2.
  - split; [reflexivity|]. split; [tauto|]. intros Hm. contradiction.
  - cbn [append] in E. discriminate E.
  - cbn [append] in E. discriminate E.
  - assert (s1 = s2) as <-.
    { apply (append_inj_l "You asked: ") in E.
      apply (reflected_text_inj ". Here is some output: " s1 s2 E). }
    split; [reflexivity|]. split; [tauto|].
    intros _. exists s1. now split.
Qed.

Lemma body_determines_input_witness :
  index (post_request "hello")
  = Return (page_prefix
            ++ ("You asked: " ++ "hello"
                ++ ". Here is some output: " ++ "hello")
            ++ page_suffix)
  /\ index post_with_other_fields
     = Return (page_prefix
               ++ ("You asked: " ++ "hello"
                   ++ ". Here is some output: " ++ "hello")
               ++ page_suffix)
  /\ index_output (post_request "hello")
     = index_output post_with_other_fields
  /\ (method (post_request "hello") = "POST"
      <-> method post_with_other_fields = "POST")
  /\ (method (post_request "hello") = "POST" ->
      exists s,
        form_get (form (post_request "hello")) "user_input" = Some s
        /\ form_get (form post_with_other_fields) "user_input" = Some s).
Proof.
  assert (H1 : index (post_request "hello")
               = Return (page_prefix
                         ++ ("You asked: " ++ "hello"
                             ++ ". Here is some output: " ++ "hello")
                         ++ page_suffix))
    by (vm_compute; reflexivity).
  assert (H2 : index post_with_other_fields
               = Return (page_prefix
                         ++ ("You asked: " ++ "hello"
                             ++ ". Here is some output: " ++ "hello")
                         ++ page_suffix))
    by (vm_compute; reflexivity).
  split; [exact H1|]. split; [exact H2|].
  exact (body_determines_input _ _ _ H1 H2).
Defined.
